(** * Logical one-to-one operators and [Limit]

    A shallow embedding of
    [python/ray/data/_internal/logical/operators/one_to_one_operator.py]:
    the class [AbstractOneToOne] and its subclass [Limit], together with the
    statements about construction, the [input_dependency] accessor and
    metadata / schema inference.

    Python operator objects live in a store ([heap]) and refer to their
    upstream operators by address, so that "the same instance" and "the same
    DAG" have a meaning.  Python exceptions are the [Raise] outcomes of an
    error monad. *)

From Stdlib Require Import ZArith List String Bool Arith Lia.
From Stdlib Require Import Decimal DecimalString DecimalPos DecimalZ.
Import ListNotations.

(** ** Outcomes of a Python call *)

Inductive exn : Type :=
| AssertionError
| IndexError.

(** [OutOfFuel] is not a Python exception: it is the answer of the
    fuel-bounded recursion below when the bound is reached, which is what a
    cyclic dependency graph would produce. *)
Inductive result (A : Type) : Type :=
| Ok (a : A)
| Raise (e : exn)
| OutOfFuel.

Arguments Ok {A} a.
Arguments Raise {A} e.
Arguments OutOfFuel {A}.

Definition bind {A B : Type} (m : result A) (k : A -> result B) : result B :=
  match m with
  | Ok a => k a
  | Raise e => Raise e
  | OutOfFuel => OutOfFuel
  end.

Notation "x <- m ;; k" := (bind m (fun x => k))
  (at level 100, m at next level, right associativity).

(** [assert b, msg] *)
Definition assert (b : bool) : result unit :=
  if b then Ok tt else Raise AssertionError.

(** [l[i]] for a non-negative index [i]. *)
Definition index {A : Type} (l : list A) (i : nat) : result A :=
  match nth_error l i with
  | Some x => Ok x
  | None => Raise IndexError
  end.

(** [str(z)] for a Python int, as used by the f-string of [Limit.__init__]. *)
Definition str_int (z : Z) : string := NilZero.string_of_int (Z.to_int z).

Definition addr : Type := nat.

(** A schema representation for the examples: column names with their type
    names.  The operators work with any other as well. *)
Definition ColumnTypes : Type := list (string * string).

Definition col_int : ColumnTypes := [("col", "int")]%string.

Section Operators.

(** [Schema] and [BlockExecStats] are defined in [ray.data.block]; this code
    never looks inside them. *)
Context {Schema : Type} {BlockExecStats : Type}.

(** Modelled from the spec: [BlockMetadata] of [ray.data.block], which the
    module imports but does not define.  "num_rows: optional
    non-negative integer, size_bytes: optional non-negative integer,
    input_files: sequence of file identifiers, exec_stats: optional". *)
Record BlockMetadata : Type := mkBlockMetadata {
  num_rows : option Z;
  size_bytes : option Z;
  input_files : list string;
  exec_stats : option BlockExecStats
}.

(** What an operator class defined outside this file answers to the three
    queries.  The answers are part of the object: the spec takes operators to
    be immutable after construction. *)
Record ExternalOp : Type := mkExternalOp {
  ext_infer_metadata : BlockMetadata;
  ext_infer_schema : option Schema;
  ext_can_modify_num_rows : option bool
}.

(** The dynamic class of an operator object.  [Limit] carries its own
    attribute [_limit]. *)
Inductive OpClass : Type :=
| Limit (_limit : Z)
| External (answers : ExternalOp).

(** Modelled from the spec: the base class [LogicalOperator] of
    [ray.data._internal.logical.interfaces], which the module imports but
    does not define.  It "holds a name, an ordered sequence of zero or more upstream
    operator dependencies, and an optional fixed output-partition count". *)
Record LogicalOperator : Type := mkLogicalOperator {
  class_of : OpClass;
  _name : string;
  _input_dependencies : list addr;
  _num_outputs : option Z
}.

(** Modelled from the spec: [LogicalOperator.__init__(name,
    input_dependencies, num_outputs)] stores its three arguments. *)
Definition LogicalOperator__init__ (cls : OpClass) (name : string)
    (input_dependencies : list addr) (num_outputs : option Z) : LogicalOperator :=
  mkLogicalOperator cls name input_dependencies num_outputs.

(** The store of operator objects, in allocation order. *)
Definition heap : Type := list LogicalOperator.

(** Creating an object: it gets the next free address. *)
Definition alloc (h : heap) (o : LogicalOperator) : heap * addr :=
  ((h ++ [o])%list, List.length h).

(** [isinstance(x, LogicalOperator)] for a reference [x]: the store holds
    the operator objects and nothing else. *)
Definition isinstance_LogicalOperator (h : heap) (x : addr) : bool :=
  match nth_error h x with
  | Some _ => true
  | None => false
  end.

(** ** class AbstractOneToOne *)

(** [AbstractOneToOne.__init__]:
    [super().__init__(name, [input_op] if input_op else [], num_outputs)].
    An operator object is always truthy, so [if input_op] tests for [None]. *)
Definition AbstractOneToOne__init__ (cls : OpClass) (name : string)
    (input_op : option addr) (num_outputs : option Z) : LogicalOperator :=
  LogicalOperator__init__ cls name
    (match input_op with
     | Some op => [op]
     | None => []
     end)
    num_outputs.

(** The property [input_dependency]: [return self._input_dependencies[0]]. *)
Definition input_dependency (self : LogicalOperator) : result addr :=
  index (_input_dependencies self) 0.

(** [AbstractOneToOne.can_modify_num_rows]: the body is [...], so a call
    that reaches it (from a subclass that does not override it) returns
    [None]. *)
Definition AbstractOneToOne_can_modify_num_rows (self : LogicalOperator)
    : option bool :=
  None.

(** ** class Limit *)

(** [Limit.__init__(input_op, limit)]: calls the base constructor with the
    name and the input operator only, so [num_outputs] takes its default
    [None]; then sets [self._limit]. *)
Definition Limit__init__ (input_op : addr) (limit : Z) : LogicalOperator :=
  AbstractOneToOne__init__ (Limit limit)
    ("limit=" ++ str_int limit)%string (Some input_op) None.

Definition Limit_can_modify_num_rows (self : LogicalOperator) : bool := true.

Section LimitMethods.

(** The store, and the virtual calls [x.infer_metadata()] and
    [x.infer_schema()] on an upstream operator [x]. *)
Variable h : heap.
Variable call_infer_metadata : addr -> result BlockMetadata.
Variable call_infer_schema : addr -> result (option Schema).

Definition Limit_infer_schema (self : LogicalOperator)
    : result (option Schema) :=
  _ <- assert (List.length (_input_dependencies self) =? 1)%nat ;;
  d <- index (_input_dependencies self) 0 ;;
  _ <- assert (isinstance_LogicalOperator h d) ;;
  d <- index (_input_dependencies self) 0 ;;
  call_infer_schema d.

Definition Limit__num_rows (self : LogicalOperator) (limit : Z)
    : result (option Z) :=
  _ <- assert (List.length (_input_dependencies self) =? 1)%nat ;;
  d <- index (_input_dependencies self) 0 ;;
  _ <- assert (isinstance_LogicalOperator h d) ;;
  d <- index (_input_dependencies self) 0 ;;
  md <- call_infer_metadata d ;;
  let input_rows := num_rows md in
  match input_rows with
  | Some input_rows => Ok (Some (Z.min input_rows limit))
  | None => Ok None
  end.

Definition Limit__input_files (self : LogicalOperator)
    : result (list string) :=
  _ <- assert (List.length (_input_dependencies self) =? 1)%nat ;;
  d <- index (_input_dependencies self) 0 ;;
  _ <- assert (isinstance_LogicalOperator h d) ;;
  d <- index (_input_dependencies self) 0 ;;
  md <- call_infer_metadata d ;;
  Ok (input_files md).

Definition Limit_infer_metadata (self : LogicalOperator) (limit : Z)
    : result BlockMetadata :=
  n <- Limit__num_rows self limit ;;
  f <- Limit__input_files self ;;
  Ok (mkBlockMetadata n None f None).

End LimitMethods.

(** ** Method dispatch on the store *)

(** [x.infer_metadata()] for the object at address [x]: the method of its
    class.  The recursion follows the dependencies; [fuel] bounds its depth. *)
Fixpoint infer_metadata_rec (fuel : nat) (h : heap) (x : addr)
    : result BlockMetadata :=
  match fuel with
  | O => OutOfFuel
  | S fuel' =>
      self <- index h x ;;
      match class_of self with
      | Limit limit =>
          Limit_infer_metadata h (infer_metadata_rec fuel' h) self limit
      | External e => Ok (ext_infer_metadata e)
      end
  end.

Fixpoint infer_schema_rec (fuel : nat) (h : heap) (x : addr)
    : result (option Schema) :=
  match fuel with
  | O => OutOfFuel
  | S fuel' =>
      self <- index h x ;;
      match class_of self with
      | Limit _ => Limit_infer_schema h (infer_schema_rec fuel' h) self
      | External e => Ok (ext_infer_schema e)
      end
  end.

(** In a store built by the constructors every dependency is older than its
    dependent, so a chain of dependencies from [x] has at most [x + 1]
    objects. *)
Definition infer_metadata (h : heap) (x : addr) : result BlockMetadata :=
  infer_metadata_rec (S x) h x.

Definition infer_schema (h : heap) (x : addr) : result (option Schema) :=
  infer_schema_rec (S x) h x.

Definition can_modify_num_rows (h : heap) (x : addr) : result (option bool) :=
  self <- index h x ;;
  match class_of self with
  | Limit _ => Ok (Some (Limit_can_modify_num_rows self))
  | External e => Ok (ext_can_modify_num_rows e)
  end.

(** The constructor calls [AbstractOneToOne(name, input_op, num_outputs)] (of
    a subclass [cls]) and [Limit(input_op, limit)]. *)
Definition new_AbstractOneToOne (h : heap) (cls : OpClass) (name : string)
    (input_op : option addr) (num_outputs : option Z) : heap * addr :=
  alloc h (AbstractOneToOne__init__ cls name input_op num_outputs).

Definition new_Limit (h : heap) (input_op : addr) (limit : Z) : heap * addr :=
  alloc h (Limit__init__ input_op limit).

(** ** Shape of the store *)

(** Every dependency of the object at address [a] is older than [a]; the
    objects of [h] sit at the addresses [a], [a + 1], ... *)
Fixpoint older_from (a : addr) (h : heap) : bool :=
  match h with
  | [] => true
  | o :: t =>
      forallb (fun d => d <? a)%nat (_input_dependencies o)
      && older_from (S a) t
  end.

(** The store is a DAG in allocation order, which is what construction
    yields: an operator is built from operators that already exist. *)
Definition wf_heap (h : heap) : bool := older_from 0 h.

(** Every [Limit] object has exactly one dependency. *)
Definition limits_unary (h : heap) : bool :=
  forallb
    (fun o =>
       match class_of o with
       | Limit _ => (List.length (_input_dependencies o) =? 1)%nat
       | External _ => true
       end)
    h.

(** The addresses that a traversal from [x] visits when it follows the
    dependencies for at most [fuel] steps. *)
Fixpoint visited (fuel : nat) (h : heap) (x : addr) : list addr :=
  x :: match fuel with
       | O => []
       | S fuel' =>
           match nth_error h x with
           | Some o => flat_map (visited fuel' h) (_input_dependencies o)
           | None => []
           end
       end.

(** The nodes of the DAG below (and including) [x]. *)
Definition dag_nodes (h : heap) (x : addr) : list addr :=
  visited (S x) h x.

(** [c2] answers as [c1] wherever [c1] has an answer. *)
Definition extends {A : Type} (c1 c2 : addr -> result A) : Prop :=
  forall d r, c1 d = r -> r <> OutOfFuel -> c2 d = r.

(** What [Limit.infer_metadata] builds from the metadata of its input. *)
Definition limit_metadata (limit : Z) (md : BlockMetadata) : BlockMetadata :=
  mkBlockMetadata
    (match num_rows md with
     | Some input_rows => Some (Z.min input_rows limit)
     | None => None
     end)
    None (input_files md) None.

(** ** A small plan used in the examples *)

(** A source operator of some class outside this file, which reports the
    metadata [md] and the schema [s]. *)
Definition demo_source (md : BlockMetadata) (s : option Schema)
    : LogicalOperator :=
  LogicalOperator__init__ (External (mkExternalOp md s (Some false)))
    "Read" [] None.

(** [Limit(source, limit)] on top of the source, built by the constructor. *)
Definition demo_plan (md : BlockMetadata) (s : option Schema) (limit : Z)
    : heap * addr :=
  new_Limit [demo_source md s] 0%nat limit.

Definition demo_metadata (rows : option Z) : BlockMetadata :=
  mkBlockMetadata rows (Some 4096%Z) ["a.parquet"; "b.parquet"]%string None.

(** The store of that plan: the source at address 0, the [Limit] at 1. *)
Definition demo_heap (md : BlockMetadata) (s : option Schema) (limit : Z)
    : heap :=
  fst (demo_plan md s limit).

(** The same plan after a second [Limit] has been built on the first. *)
Definition demo_plan_grown (md : BlockMetadata) (s : option Schema)
    (limit limit' : Z) : heap * addr :=
  new_Limit (demo_heap md s limit) 1%nat limit'.

(** An object of class [Limit] whose dependency list was filled behind the
    constructor's back with two operators. *)
Definition two_inputs : LogicalOperator :=
  mkLogicalOperator (Limit 5%Z) "limit=5" [0%nat; 1%nat] None.

(** ** Plans as a caller builds them *)

(** [x.limit(l1).limit(l2)...]: one [Limit] after the other, each on top of
    the previous one. *)
Fixpoint stack_limits (h : heap) (x : addr) (limits : list Z) : heap * addr :=
  match limits with
  | [] => (h, x)
  | l :: ls =>
      stack_limits (fst (new_Limit h x l)) (snd (new_Limit h x l)) ls
  end.

(** The stores that come from building operators one at a time, each on
    operators that already exist: operators of other classes, and [Limit]s
    through their constructor. *)
Inductive built : heap -> Prop :=
| built_empty : built []
| built_External :
    forall (h : heap) (e : ExternalOp) (name : string)
           (deps : list addr) (num_outputs : option Z),
    built h ->
    forallb (fun d => d <? List.length h)%nat deps = true ->
    built (fst (alloc h (LogicalOperator__init__ (External e) name deps
                           num_outputs)))
| built_Limit :
    forall (h : heap) (input_op : addr) (limit : Z),
    built h ->
    (input_op < List.length h)%nat ->
    built (fst (new_Limit h input_op limit)).

(** A store in which a [Limit] sits on an object of class [Limit] that has
    two dependencies. *)
Definition demo_broken_heap (md : BlockMetadata) (s : option Schema) : heap :=
  fst (new_Limit [demo_source md s; demo_source md s; two_inputs] 2%nat 10%Z).

(** ** The error monad *)

Lemma bind_Ok : forall (A B : Type) (m : result A) (k : A -> result B) (b : B),
  bind m k = Ok b -> exists a, m = Ok a /\ k a = Ok b.
Proof.
  intros A B [a | e |] k b H; simpl in H; try discriminate.
  exists a; split; [reflexivity | exact H].
Qed.

Lemma index_nth_error : forall (A : Type) (l : list A) (i : nat) (x : A),
  nth_error l i = Some x -> index l i = Ok x.
Proof. intros A l i x H. unfold index. rewrite H. reflexivity. Qed.

(** ** Dependencies point backwards *)

Lemma older_from_spec : forall (h : heap) (k a : addr) (o : LogicalOperator) (d : addr),
  older_from k h = true ->
  nth_error h a = Some o ->
  In d (_input_dependencies o) ->
  (d < k + a)%nat.
Proof.
  induction h as [| o' t IH]; intros k a o d Hwf Hnth Hin.
  - destruct a; discriminate.
  - simpl in Hwf. apply andb_true_iff in Hwf. destruct Hwf as [Hhd Htl].
    destruct a as [| a]; simpl in Hnth.
    + inversion Hnth; subst o'.
      rewrite forallb_forall in Hhd. apply Hhd in Hin.
      apply Nat.ltb_lt in Hin. lia.
    + specialize (IH (S k) a o d Htl Hnth Hin). lia.
Qed.

Lemma wf_heap_older : forall (h : heap) (a : addr) (o : LogicalOperator) (d : addr),
  wf_heap h = true ->
  nth_error h a = Some o ->
  In d (_input_dependencies o) ->
  (d < a)%nat.
Proof.
  intros h a o d Hwf Hnth Hin.
  exact (older_from_spec h 0 a o d Hwf Hnth Hin).
Qed.

Lemma wf_heap_dep_exists : forall (h : heap) (a : addr) (o : LogicalOperator) (d : addr),
  wf_heap h = true ->
  nth_error h a = Some o ->
  In d (_input_dependencies o) ->
  isinstance_LogicalOperator h d = true.
Proof.
  intros h a o d Hwf Hnth Hin.
  pose proof (wf_heap_older h a o d Hwf Hnth Hin) as Hlt.
  assert (Ha : (a < List.length h)%nat).
  { apply nth_error_Some. rewrite Hnth. discriminate. }
  unfold isinstance_LogicalOperator.
  destruct (nth_error h d) eqn:E; [reflexivity |].
  apply nth_error_None in E. lia.
Qed.

(** ** The methods of [Limit] on an operator with one dependency *)

Lemma unary_dependencies : forall (self : LogicalOperator),
  (List.length (_input_dependencies self) =? 1)%nat = true ->
  exists up, _input_dependencies self = [up].
Proof.
  intros self H. apply Nat.eqb_eq in H.
  destruct (_input_dependencies self) as [| up [| ? ?]]; try discriminate.
  exists up; reflexivity.
Qed.

Lemma Limit_infer_metadata_unary :
  forall (h : heap) (call : addr -> result BlockMetadata)
         (self : LogicalOperator) (limit : Z) (up : addr),
  _input_dependencies self = [up] ->
  isinstance_LogicalOperator h up = true ->
  Limit_infer_metadata h call self limit
  = (md <- call up ;; Ok (limit_metadata limit md)).
Proof.
  intros h call self limit up Hdeps Hinst.
  unfold Limit_infer_metadata, Limit__num_rows, Limit__input_files, limit_metadata.
  rewrite Hdeps. simpl. rewrite Hinst. simpl.
  destruct (call up) as [md | e |]; simpl; try reflexivity.
  destruct (num_rows md); reflexivity.
Qed.

Lemma Limit_infer_schema_unary :
  forall (h : heap) (call : addr -> result (option Schema))
         (self : LogicalOperator) (up : addr),
  _input_dependencies self = [up] ->
  isinstance_LogicalOperator h up = true ->
  Limit_infer_schema h call self = call up.
Proof.
  intros h call self up Hdeps Hinst.
  unfold Limit_infer_schema.
  rewrite Hdeps. simpl. rewrite Hinst. reflexivity.
Qed.

Lemma Limit_infer_metadata_arity :
  forall (h : heap) (call : addr -> result BlockMetadata)
         (self : LogicalOperator) (limit : Z),
  (List.length (_input_dependencies self) =? 1)%nat = false ->
  Limit_infer_metadata h call self limit = Raise AssertionError.
Proof.
  intros h call self limit H.
  unfold Limit_infer_metadata, Limit__num_rows. rewrite H. reflexivity.
Qed.

Lemma Limit_infer_schema_arity :
  forall (h : heap) (call : addr -> result (option Schema))
         (self : LogicalOperator),
  (List.length (_input_dependencies self) =? 1)%nat = false ->
  Limit_infer_schema h call self = Raise AssertionError.
Proof.
  intros h call self H.
  unfold Limit_infer_schema. rewrite H. reflexivity.
Qed.

Lemma Limit_infer_metadata_not_operator :
  forall (h : heap) (call : addr -> result BlockMetadata)
         (self : LogicalOperator) (limit : Z) (up : addr),
  _input_dependencies self = [up] ->
  isinstance_LogicalOperator h up = false ->
  Limit_infer_metadata h call self limit = Raise AssertionError.
Proof.
  intros h call self limit up Hdeps Hinst.
  unfold Limit_infer_metadata, Limit__num_rows.
  rewrite Hdeps. simpl. rewrite Hinst. reflexivity.
Qed.

Lemma Limit_infer_schema_not_operator :
  forall (h : heap) (call : addr -> result (option Schema))
         (self : LogicalOperator) (up : addr),
  _input_dependencies self = [up] ->
  isinstance_LogicalOperator h up = false ->
  Limit_infer_schema h call self = Raise AssertionError.
Proof.
  intros h call self up Hdeps Hinst.
  unfold Limit_infer_schema.
  rewrite Hdeps. simpl. rewrite Hinst. reflexivity.
Qed.

(** The three ways a method of [Limit] can go. *)
Ltac limit_cases self h :=
  let Hlen := fresh "Hlen" in
  let up := fresh "up" in
  let Hdeps := fresh "Hdeps" in
  let Hinst := fresh "Hinst" in
  destruct (List.length (_input_dependencies self) =? 1)%nat eqn:Hlen;
  [ destruct (unary_dependencies self Hlen) as [up Hdeps];
    destruct (isinstance_LogicalOperator h up) eqn:Hinst
  | ].

Lemma Limit_infer_metadata_extends :
  forall (h : heap) (c1 c2 : addr -> result BlockMetadata)
         (self : LogicalOperator) (limit : Z),
  extends c1 c2 ->
  forall r, Limit_infer_metadata h c1 self limit = r -> r <> OutOfFuel ->
  Limit_infer_metadata h c2 self limit = r.
Proof.
  intros h c1 c2 self limit Hext r Hr Hfuel.
  limit_cases self h.
  - rewrite (Limit_infer_metadata_unary h c1 self limit up Hdeps Hinst) in Hr.
    rewrite (Limit_infer_metadata_unary h c2 self limit up Hdeps Hinst).
    destruct (c1 up) as [md | e |] eqn:E1.
    + rewrite (Hext up (Ok md) E1); [exact Hr | discriminate].
    + rewrite (Hext up (Raise e) E1); [exact Hr | discriminate].
    + simpl in Hr. congruence.
  - rewrite (Limit_infer_metadata_not_operator h c1 self limit up Hdeps Hinst) in Hr.
    rewrite (Limit_infer_metadata_not_operator h c2 self limit up Hdeps Hinst).
    exact Hr.
  - rewrite (Limit_infer_metadata_arity h c1 self limit Hlen) in Hr.
    rewrite (Limit_infer_metadata_arity h c2 self limit Hlen).
    exact Hr.
Qed.

Lemma Limit_infer_schema_extends :
  forall (h : heap) (c1 c2 : addr -> result (option Schema))
         (self : LogicalOperator),
  extends c1 c2 ->
  forall r, Limit_infer_schema h c1 self = r -> r <> OutOfFuel ->
  Limit_infer_schema h c2 self = r.
Proof.
  intros h c1 c2 self Hext r Hr Hfuel.
  limit_cases self h.
  - rewrite (Limit_infer_schema_unary h c1 self up Hdeps Hinst) in Hr.
    rewrite (Limit_infer_schema_unary h c2 self up Hdeps Hinst).
    exact (Hext up r Hr Hfuel).
  - rewrite (Limit_infer_schema_not_operator h c1 self up Hdeps Hinst) in Hr.
    rewrite (Limit_infer_schema_not_operator h c2 self up Hdeps Hinst).
    exact Hr.
  - rewrite (Limit_infer_schema_arity h c1 self Hlen) in Hr.
    rewrite (Limit_infer_schema_arity h c2 self Hlen).
    exact Hr.
Qed.

(** ** The depth bound does not matter once it is large enough *)

Lemma infer_metadata_rec_mono : forall (h : heap) (n m : nat),
  (n <= m)%nat -> extends (infer_metadata_rec n h) (infer_metadata_rec m h).
Proof.
  intros h n. induction n as [| n IH]; intros m Hle x r Hr Hfuel.
  - simpl in Hr. congruence.
  - destruct m as [| m]; [lia |].
    simpl in Hr. simpl.
    destruct (index h x) as [self | e |]; simpl in *; try exact Hr.
    destruct (class_of self) as [limit | e]; [| exact Hr].
    apply (Limit_infer_metadata_extends h (infer_metadata_rec n h)); auto.
    apply IH. lia.
Qed.

Lemma infer_schema_rec_mono : forall (h : heap) (n m : nat),
  (n <= m)%nat -> extends (infer_schema_rec n h) (infer_schema_rec m h).
Proof.
  intros h n. induction n as [| n IH]; intros m Hle x r Hr Hfuel.
  - simpl in Hr. congruence.
  - destruct m as [| m]; [lia |].
    simpl in Hr. simpl.
    destruct (index h x) as [self | e |]; simpl in *; try exact Hr.
    destruct (class_of self) as [limit | e]; [| exact Hr].
    apply (Limit_infer_schema_extends h (infer_schema_rec n h)); auto.
    apply IH. lia.
Qed.

(** ** Inference on a well-formed store needs no more than [x + 1] levels *)

Lemma infer_metadata_rec_fuel : forall (h : heap),
  wf_heap h = true ->
  forall (n : nat) (x : addr), (x < n)%nat -> infer_metadata_rec n h x <> OutOfFuel.
Proof.
  intros h Hwf n. induction n as [| n IH]; intros x Hx; [lia |].
  simpl. unfold index.
  destruct (nth_error h x) as [self |] eqn:Hself; simpl; [| discriminate].
  destruct (class_of self) as [limit | e]; [| discriminate].
  limit_cases self h.
  - rewrite (Limit_infer_metadata_unary h _ self limit up Hdeps Hinst).
    assert (Hup : (up < x)%nat).
    { apply (wf_heap_older h x self up Hwf Hself). rewrite Hdeps. left; reflexivity. }
    specialize (IH up ltac:(lia)).
    destruct (infer_metadata_rec n h up); simpl; congruence.
  - rewrite (Limit_infer_metadata_not_operator h _ self limit up Hdeps Hinst).
    discriminate.
  - rewrite (Limit_infer_metadata_arity h _ self limit Hlen). discriminate.
Qed.

Lemma infer_schema_rec_fuel : forall (h : heap),
  wf_heap h = true ->
  forall (n : nat) (x : addr), (x < n)%nat -> infer_schema_rec n h x <> OutOfFuel.
Proof.
  intros h Hwf n. induction n as [| n IH]; intros x Hx; [lia |].
  simpl. unfold index.
  destruct (nth_error h x) as [self |] eqn:Hself; simpl; [| discriminate].
  destruct (class_of self) as [limit | e]; [| discriminate].
  limit_cases self h.
  - rewrite (Limit_infer_schema_unary h _ self up Hdeps Hinst).
    assert (Hup : (up < x)%nat).
    { apply (wf_heap_older h x self up Hwf Hself). rewrite Hdeps. left; reflexivity. }
    apply IH. lia.
  - rewrite (Limit_infer_schema_not_operator h _ self up Hdeps Hinst).
    discriminate.
  - rewrite (Limit_infer_schema_arity h _ self Hlen). discriminate.
Qed.

Lemma infer_metadata_enough_fuel : forall (h : heap) (n : nat) (x : addr),
  wf_heap h = true -> (x < n)%nat ->
  infer_metadata_rec n h x = infer_metadata h x.
Proof.
  intros h n x Hwf Hx. unfold infer_metadata.
  apply (infer_metadata_rec_mono h (S x) n); [lia | reflexivity |].
  apply infer_metadata_rec_fuel; [exact Hwf | lia].
Qed.

Lemma infer_schema_enough_fuel : forall (h : heap) (n : nat) (x : addr),
  wf_heap h = true -> (x < n)%nat ->
  infer_schema_rec n h x = infer_schema h x.
Proof.
  intros h n x Hwf Hx. unfold infer_schema.
  apply (infer_schema_rec_mono h (S x) n); [lia | reflexivity |].
  apply infer_schema_rec_fuel; [exact Hwf | lia].
Qed.

(** ** [Limit] in terms of its input *)

(** [Limit.infer_metadata()] is the metadata of the input, adjusted; an
    exception of the input's inference passes through. *)
Lemma infer_metadata_Limit :
  forall (h : heap) (self : addr) (o : LogicalOperator) (limit : Z) (up : addr),
  wf_heap h = true ->
  nth_error h self = Some o ->
  class_of o = Limit limit ->
  _input_dependencies o = [up] ->
  infer_metadata h self
  = (md <- infer_metadata h up ;; Ok (limit_metadata limit md)).
Proof.
  intros h self o limit up Hwf Hself Hcls Hdeps.
  assert (Hin : In up (_input_dependencies o)) by (rewrite Hdeps; left; reflexivity).
  pose proof (wf_heap_older h self o up Hwf Hself Hin) as Hlt.
  pose proof (wf_heap_dep_exists h self o up Hwf Hself Hin) as Hinst.
  unfold infer_metadata at 1. simpl.
  rewrite (index_nth_error _ h self o Hself). simpl. rewrite Hcls.
  rewrite (Limit_infer_metadata_unary h _ o limit up Hdeps Hinst).
  rewrite (infer_metadata_enough_fuel h self up Hwf Hlt).
  reflexivity.
Qed.

Lemma infer_schema_Limit :
  forall (h : heap) (self : addr) (o : LogicalOperator) (limit : Z) (up : addr),
  wf_heap h = true ->
  nth_error h self = Some o ->
  class_of o = Limit limit ->
  _input_dependencies o = [up] ->
  infer_schema h self = infer_schema h up.
Proof.
  intros h self o limit up Hwf Hself Hcls Hdeps.
  assert (Hin : In up (_input_dependencies o)) by (rewrite Hdeps; left; reflexivity).
  pose proof (wf_heap_older h self o up Hwf Hself Hin) as Hlt.
  pose proof (wf_heap_dep_exists h self o up Hwf Hself Hin) as Hinst.
  unfold infer_schema at 1. simpl.
  rewrite (index_nth_error _ h self o Hself). simpl. rewrite Hcls.
  rewrite (Limit_infer_schema_unary h _ o up Hdeps Hinst).
  apply (infer_schema_enough_fuel h self up Hwf Hlt).
Qed.

(** A [Limit] whose arity is wrong: inference stops at the first assertion. *)
Lemma infer_metadata_Limit_arity :
  forall (h : heap) (self : addr) (o : LogicalOperator) (limit : Z),
  nth_error h self = Some o ->
  class_of o = Limit limit ->
  List.length (_input_dependencies o) <> 1%nat ->
  infer_metadata h self = Raise AssertionError
  /\ infer_schema h self = Raise AssertionError.
Proof.
  intros h self o limit Hself Hcls Hlen.
  apply Nat.eqb_neq in Hlen.
  unfold infer_metadata, infer_schema. simpl.
  rewrite (index_nth_error _ h self o Hself). simpl. rewrite Hcls.
  split.
  - apply Limit_infer_metadata_arity; exact Hlen.
  - apply Limit_infer_schema_arity; exact Hlen.
Qed.

(** ** Construction and the store *)

Lemma alloc_lookup_new : forall (h : heap) (o : LogicalOperator),
  nth_error (fst (alloc h o)) (snd (alloc h o)) = Some o.
Proof.
  intros h o. unfold alloc; simpl.
  rewrite nth_error_app2 by lia.
  rewrite Nat.sub_diag. reflexivity.
Qed.

Lemma alloc_lookup_old : forall (h : heap) (o : LogicalOperator) (x : addr),
  (x < List.length h)%nat ->
  nth_error (fst (alloc h o)) x = nth_error h x.
Proof.
  intros h o x Hx. unfold alloc; simpl.
  apply nth_error_app1. exact Hx.
Qed.

Lemma alloc_firstn : forall (h : heap) (o : LogicalOperator),
  firstn (List.length h) (fst (alloc h o)) = h.
Proof.
  intros h o. unfold alloc; simpl.
  rewrite firstn_app, Nat.sub_diag, firstn_all. simpl.
  apply app_nil_r.
Qed.

Lemma older_from_app : forall (h : heap) (k : addr) (o : LogicalOperator),
  older_from k (h ++ [o])
  = older_from k h
    && forallb (fun d => d <? k + List.length h)%nat (_input_dependencies o).
Proof.
  induction h as [| o' t IH]; intros k o; simpl.
  - rewrite Nat.add_0_r. rewrite andb_true_r. reflexivity.
  - rewrite IH. rewrite <- andb_assoc.
    replace (S k + List.length t)%nat with (k + S (List.length t))%nat by lia.
    reflexivity.
Qed.

(** Building an operator on operators that exist keeps the store a DAG. *)
Lemma alloc_wf : forall (h : heap) (o : LogicalOperator),
  wf_heap h = true ->
  forallb (fun d => d <? List.length h)%nat (_input_dependencies o) = true ->
  wf_heap (fst (alloc h o)) = true.
Proof.
  intros h o Hwf Hdeps. unfold wf_heap, alloc; simpl.
  rewrite older_from_app. simpl. rewrite Hdeps.
  unfold wf_heap in Hwf. rewrite Hwf. reflexivity.
Qed.

Lemma new_Limit_wf : forall (h : heap) (input_op : addr) (limit : Z),
  wf_heap h = true ->
  (input_op < List.length h)%nat ->
  wf_heap (fst (new_Limit h input_op limit)) = true.
Proof.
  intros h input_op limit Hwf Hlt. unfold new_Limit.
  apply alloc_wf; [exact Hwf |].
  simpl. apply Nat.ltb_lt in Hlt. rewrite Hlt. reflexivity.
Qed.

Lemma new_Limit_unary : forall (h : heap) (input_op : addr) (limit : Z),
  limits_unary h = true ->
  limits_unary (fst (new_Limit h input_op limit)) = true.
Proof.
  intros h input_op limit H. unfold new_Limit, alloc, limits_unary; simpl.
  rewrite forallb_app. unfold limits_unary in H. rewrite H. reflexivity.
Qed.

(** ** Inference returns *)

Lemma limits_unary_spec : forall (h : heap) (x : addr) (o : LogicalOperator) (limit : Z),
  limits_unary h = true ->
  nth_error h x = Some o ->
  class_of o = Limit limit ->
  exists up, _input_dependencies o = [up].
Proof.
  intros h x o limit Hun Hx Hcls.
  unfold limits_unary in Hun. rewrite forallb_forall in Hun.
  specialize (Hun o (nth_error_In h x Hx)). rewrite Hcls in Hun.
  apply unary_dependencies. exact Hun.
Qed.

(** On a store that is a DAG and whose [Limit] objects have one input, no
    assertion fails and the recursion ends: inference returns a value at
    every operator. *)
Lemma inference_returns : forall (h : heap),
  wf_heap h = true ->
  limits_unary h = true ->
  forall x : addr, (x < List.length h)%nat ->
  (exists md, infer_metadata h x = Ok md)
  /\ (exists s, infer_schema h x = Ok s).
Proof.
  intros h Hwf Hun x.
  induction x as [x IH] using (well_founded_induction lt_wf).
  intros Hx.
  destruct (nth_error h x) as [o |] eqn:Hself;
    [| apply nth_error_None in Hself; lia].
  destruct (class_of o) as [limit | e] eqn:Hcls.
  - destruct (limits_unary_spec h x o limit Hun Hself Hcls) as [up Hdeps].
    assert (Hin : In up (_input_dependencies o)) by (rewrite Hdeps; left; reflexivity).
    pose proof (wf_heap_older h x o up Hwf Hself Hin) as Hlt.
    destruct (IH up Hlt ltac:(lia)) as [[md Hmd] [s Hs]].
    split.
    + exists (limit_metadata limit md).
      rewrite (infer_metadata_Limit h x o limit up Hwf Hself Hcls Hdeps).
      rewrite Hmd. reflexivity.
    + exists s.
      rewrite (infer_schema_Limit h x o limit up Hwf Hself Hcls Hdeps).
      exact Hs.
  - unfold infer_metadata, infer_schema. simpl.
    rewrite (index_nth_error _ h x o Hself). simpl. rewrite Hcls.
    split; eexists; reflexivity.
Qed.

(** ** Inference reads the DAG below the operator and nothing else *)

Lemma visited_self : forall (n : nat) (h : heap) (x : addr),
  In x (visited n h x).
Proof. intros n h x. destruct n; left; reflexivity. Qed.

Lemma visited_dep :
  forall (n : nat) (h : heap) (x : addr) (o : LogicalOperator) (d b : addr),
  nth_error h x = Some o ->
  In d (_input_dependencies o) ->
  In b (visited n h d) ->
  In b (visited (S n) h x).
Proof.
  intros n h x o d b Hx Hd Hb.
  simpl. right. rewrite Hx. apply in_flat_map. exists d. split; assumption.
Qed.

Lemma isinstance_agree : forall (h1 h2 : heap) (x : addr),
  nth_error h1 x = nth_error h2 x ->
  isinstance_LogicalOperator h1 x = isinstance_LogicalOperator h2 x.
Proof.
  intros h1 h2 x H. unfold isinstance_LogicalOperator. rewrite H. reflexivity.
Qed.

Lemma infer_metadata_rec_agree : forall (h1 h2 : heap) (n : nat) (x : addr),
  (forall b, In b (visited n h1 x) -> nth_error h1 b = nth_error h2 b) ->
  infer_metadata_rec n h1 x = infer_metadata_rec n h2 x.
Proof.
  intros h1 h2 n. induction n as [| n IH]; intros x Hagree; [reflexivity |].
  simpl. unfold index.
  rewrite <- (Hagree x (visited_self (S n) h1 x)).
  destruct (nth_error h1 x) as [self |] eqn:Hself; simpl; [| reflexivity].
  destruct (class_of self) as [limit | e]; [| reflexivity].
  limit_cases self h1.
  - assert (Hin : In up (_input_dependencies self)) by (rewrite Hdeps; left; reflexivity).
    assert (Hsub : forall b, In b (visited n h1 up) -> nth_error h1 b = nth_error h2 b).
    { intros b Hb. apply Hagree. exact (visited_dep n h1 x self up b Hself Hin Hb). }
    rewrite (Limit_infer_metadata_unary h1 _ self limit up Hdeps Hinst).
    rewrite (isinstance_agree h1 h2 up (Hsub up (visited_self n h1 up))) in Hinst.
    rewrite (Limit_infer_metadata_unary h2 _ self limit up Hdeps Hinst).
    rewrite (IH up Hsub). reflexivity.
  - assert (Hin : In up (_input_dependencies self)) by (rewrite Hdeps; left; reflexivity).
    rewrite (Limit_infer_metadata_not_operator h1 _ self limit up Hdeps Hinst).
    rewrite (isinstance_agree h1 h2 up) in Hinst.
    + rewrite (Limit_infer_metadata_not_operator h2 _ self limit up Hdeps Hinst).
      reflexivity.
    + apply Hagree.
      exact (visited_dep n h1 x self up up Hself Hin (visited_self n h1 up)).
  - rewrite !Limit_infer_metadata_arity by exact Hlen. reflexivity.
Qed.

Lemma infer_schema_rec_agree : forall (h1 h2 : heap) (n : nat) (x : addr),
  (forall b, In b (visited n h1 x) -> nth_error h1 b = nth_error h2 b) ->
  infer_schema_rec n h1 x = infer_schema_rec n h2 x.
Proof.
  intros h1 h2 n. induction n as [| n IH]; intros x Hagree; [reflexivity |].
  simpl. unfold index.
  rewrite <- (Hagree x (visited_self (S n) h1 x)).
  destruct (nth_error h1 x) as [self |] eqn:Hself; simpl; [| reflexivity].
  destruct (class_of self) as [limit | e]; [| reflexivity].
  limit_cases self h1.
  - assert (Hin : In up (_input_dependencies self)) by (rewrite Hdeps; left; reflexivity).
    assert (Hsub : forall b, In b (visited n h1 up) -> nth_error h1 b = nth_error h2 b).
    { intros b Hb. apply Hagree. exact (visited_dep n h1 x self up b Hself Hin Hb). }
    rewrite (Limit_infer_schema_unary h1 _ self up Hdeps Hinst).
    rewrite (isinstance_agree h1 h2 up (Hsub up (visited_self n h1 up))) in Hinst.
    rewrite (Limit_infer_schema_unary h2 _ self up Hdeps Hinst).
    apply IH. exact Hsub.
  - assert (Hin : In up (_input_dependencies self)) by (rewrite Hdeps; left; reflexivity).
    rewrite (Limit_infer_schema_not_operator h1 _ self up Hdeps Hinst).
    rewrite (isinstance_agree h1 h2 up) in Hinst.
    + rewrite (Limit_infer_schema_not_operator h2 _ self up Hdeps Hinst).
      reflexivity.
    + apply Hagree.
      exact (visited_dep n h1 x self up up Hself Hin (visited_self n h1 up)).
  - rewrite !Limit_infer_schema_arity by exact Hlen. reflexivity.
Qed.

(** ** A [Limit] as the constructor builds it *)

Lemma visited_le : forall (h : heap),
  wf_heap h = true ->
  forall (n : nat) (x b : addr), In b (visited n h x) -> (b <= x)%nat.
Proof.
  intros h Hwf n. induction n as [| n IH]; intros x b Hb.
  - destruct Hb as [Hb | []]. lia.
  - simpl in Hb. destruct Hb as [Hb | Hb]; [lia |].
    destruct (nth_error h x) as [o |] eqn:Hx; [| contradiction].
    apply in_flat_map in Hb. destruct Hb as [d [Hd Hb]].
    pose proof (wf_heap_older h x o d Hwf Hx Hd).
    specialize (IH d b Hb). lia.
Qed.

(** Building a new operator does not change what the existing ones infer. *)
Lemma alloc_preserves_inference :
  forall (h : heap) (o : LogicalOperator) (x : addr),
  wf_heap h = true ->
  (x < List.length h)%nat ->
  infer_metadata (fst (alloc h o)) x = infer_metadata h x
  /\ infer_schema (fst (alloc h o)) x = infer_schema h x.
Proof.
  intros h o x Hwf Hx.
  assert (Hagree : forall b, In b (visited (S x) h x) ->
                             nth_error h b = nth_error (fst (alloc h o)) b).
  { intros b Hb. symmetry. apply alloc_lookup_old.
    pose proof (visited_le h Hwf (S x) x b Hb). lia. }
  unfold infer_metadata, infer_schema. split; symmetry.
  - apply infer_metadata_rec_agree. exact Hagree.
  - apply infer_schema_rec_agree. exact Hagree.
Qed.

(** [Limit(input_op, limit)] over an existing operator whose inference
    returns: the new operator infers the adjusted metadata and the same
    schema. *)
Lemma new_Limit_inference :
  forall (h : heap) (input_op : addr) (limit : Z)
         (md : BlockMetadata) (s : option Schema),
  wf_heap h = true ->
  (input_op < List.length h)%nat ->
  infer_metadata h input_op = Ok md ->
  infer_schema h input_op = Ok s ->
  infer_metadata (fst (new_Limit h input_op limit))
                 (snd (new_Limit h input_op limit))
  = Ok (limit_metadata limit md)
  /\ infer_schema (fst (new_Limit h input_op limit))
                  (snd (new_Limit h input_op limit))
     = Ok s.
Proof.
  intros h input_op limit md s Hwf Hlt Hmd Hs.
  pose proof (new_Limit_wf h input_op limit Hwf Hlt) as Hwf'.
  unfold new_Limit in *.
  pose proof (alloc_lookup_new h (Limit__init__ input_op limit)) as Hnew.
  destruct (alloc_preserves_inference h (Limit__init__ input_op limit)
              input_op Hwf Hlt) as [Hm' Hs'].
  split.
  - rewrite (infer_metadata_Limit _ _ _ limit input_op Hwf' Hnew eq_refl eq_refl).
    rewrite Hm', Hmd. reflexivity.
  - rewrite (infer_schema_Limit _ _ _ limit input_op Hwf' Hnew eq_refl eq_refl).
    rewrite Hs'. exact Hs.
Qed.

(** ** Construction *)

(** C4: an absent input operator gives an empty dependency sequence; a
    present one gives a sequence of length exactly 1 and [input_dependency]
    returns that operator (the same address, hence the same instance).  In
    the store the new object sits at the address the constructor returns,
    and the objects that were there before are untouched. *)
Theorem AbstractOneToOne_construction :
  forall (cls : OpClass) (name : string) (num_outputs : option Z),
  _input_dependencies (AbstractOneToOne__init__ cls name None num_outputs) = []
  /\ (forall op : addr,
        List.length
          (_input_dependencies
             (AbstractOneToOne__init__ cls name (Some op) num_outputs)) = 1%nat
        /\ input_dependency
             (AbstractOneToOne__init__ cls name (Some op) num_outputs) = Ok op)
  /\ (forall (h : heap) (input_op : option addr),
        nth_error
          (fst (new_AbstractOneToOne h cls name input_op num_outputs))
          (snd (new_AbstractOneToOne h cls name input_op num_outputs))
        = Some (AbstractOneToOne__init__ cls name input_op num_outputs)
        /\ firstn (List.length h)
             (fst (new_AbstractOneToOne h cls name input_op num_outputs))
           = h).
Proof.
  intros cls name num_outputs. split; [reflexivity | split].
  - intros op. split; reflexivity.
  - intros h input_op. unfold new_AbstractOneToOne. split.
    + apply alloc_lookup_new.
    + apply alloc_firstn.
Qed.

(** C10: [Limit.__init__] passes no partition count on: the object it builds
    has [_num_outputs] absent, whatever the input operator and the limit. *)
Theorem Limit_num_outputs_absent :
  forall (input_op : addr) (limit : Z),
  _num_outputs (Limit__init__ input_op limit) = None
  /\ (forall h : heap,
        exists o,
          nth_error (fst (new_Limit h input_op limit))
                    (snd (new_Limit h input_op limit)) = Some o
          /\ class_of o = Limit limit
          /\ _input_dependencies o = [input_op]
          /\ _num_outputs o = None).
Proof.
  intros input_op limit. split; [reflexivity |].
  intros h. exists (Limit__init__ input_op limit).
  split; [apply alloc_lookup_new | repeat split].
Qed.

(** ** The accessor [input_dependency] *)

(** C3 (amended): [input_dependency] makes no arity check.  On an empty
    dependency sequence it fails with [IndexError] (not an assertion
    failure) and returns nothing; on a non-empty one it returns the first
    element.  On an operator as the constructor builds it, this is a failure
    when there is no input operator and the input operator otherwise. *)
Theorem input_dependency_first_or_IndexError :
  (forall self : LogicalOperator,
     input_dependency self
     = match _input_dependencies self with
       | [] => Raise IndexError
       | d :: _ => Ok d
       end)
  /\ (forall (cls : OpClass) (name : string) (input_op : option addr)
             (num_outputs : option Z),
        input_dependency (AbstractOneToOne__init__ cls name input_op num_outputs)
        = match input_op with
          | None => Raise IndexError
          | Some op => Ok op
          end).
Proof.
  split.
  - intros self. unfold input_dependency, index.
    destruct (_input_dependencies self); reflexivity.
  - intros cls name [op |] num_outputs; reflexivity.
Qed.

(** ** [Limit]: the cardinality query *)

(** C8: [can_modify_num_rows()] on an object of class [Limit] returns
    [True], whatever its limit and its dependencies. *)
Theorem Limit_can_modify_num_rows_true :
  forall (h : heap) (self : addr) (o : LogicalOperator) (limit : Z),
  nth_error h self = Some o ->
  class_of o = Limit limit ->
  can_modify_num_rows h self = Ok (Some true).
Proof.
  intros h self o limit Hself Hcls.
  unfold can_modify_num_rows.
  rewrite (index_nth_error _ h self o Hself). simpl.
  rewrite Hcls. reflexivity.
Qed.

(** ** [Limit]: metadata inference *)

(** C1: when the metadata inferred for the single input reports the row
    count [r], and the limit is [limit >= 0], [infer_metadata()] of the
    [Limit] returns a metadata value whose [num_rows] is [min(r, limit)]. *)
Theorem Limit_num_rows_known :
  forall (h : heap) (self : addr) (o : LogicalOperator) (limit : Z)
         (up : addr) (md_up : BlockMetadata) (r : Z),
  wf_heap h = true ->
  nth_error h self = Some o ->
  class_of o = Limit limit ->
  _input_dependencies o = [up] ->
  infer_metadata h up = Ok md_up ->
  num_rows md_up = Some r ->
  (0 <= limit)%Z ->
  exists md, infer_metadata h self = Ok md
             /\ num_rows md = Some (Z.min r limit).
Proof.
  intros h self o limit up md_up r Hwf Hself Hcls Hdeps Hup Hrows _.
  exists (limit_metadata limit md_up). split.
  - rewrite (infer_metadata_Limit h self o limit up Hwf Hself Hcls Hdeps).
    rewrite Hup. reflexivity.
  - unfold limit_metadata. simpl. rewrite Hrows. reflexivity.
Qed.

(** C2: when the metadata inferred for the single input has no row count,
    [infer_metadata()] of the [Limit] returns a metadata value without a row
    count, whatever the limit; in particular the count is not the limit. *)
Theorem Limit_num_rows_unknown :
  forall (h : heap) (self : addr) (o : LogicalOperator) (limit : Z)
         (up : addr) (md_up : BlockMetadata),
  wf_heap h = true ->
  nth_error h self = Some o ->
  class_of o = Limit limit ->
  _input_dependencies o = [up] ->
  infer_metadata h up = Ok md_up ->
  num_rows md_up = None ->
  exists md, infer_metadata h self = Ok md
             /\ num_rows md = None
             /\ num_rows md <> Some limit.
Proof.
  intros h self o limit up md_up Hwf Hself Hcls Hdeps Hup Hrows.
  exists (limit_metadata limit md_up). split; [| split].
  - rewrite (infer_metadata_Limit h self o limit up Hwf Hself Hcls Hdeps).
    rewrite Hup. reflexivity.
  - unfold limit_metadata. simpl. rewrite Hrows. reflexivity.
  - unfold limit_metadata. simpl. rewrite Hrows. discriminate.
Qed.

(** C6: [infer_metadata().input_files] of a [Limit] with one input is the
    [input_files] of the input's inferred metadata: the same list, so the
    same element at every position. *)
Theorem Limit_input_files_inherited :
  forall (h : heap) (self : addr) (o : LogicalOperator) (limit : Z)
         (up : addr) (md_up : BlockMetadata),
  wf_heap h = true ->
  nth_error h self = Some o ->
  class_of o = Limit limit ->
  _input_dependencies o = [up] ->
  infer_metadata h up = Ok md_up ->
  exists md, infer_metadata h self = Ok md
             /\ input_files md = input_files md_up
             /\ (forall i, nth_error (input_files md) i
                           = nth_error (input_files md_up) i).
Proof.
  intros h self o limit up md_up Hwf Hself Hcls Hdeps Hup.
  exists (limit_metadata limit md_up). split; [| split].
  - rewrite (infer_metadata_Limit h self o limit up Hwf Hself Hcls Hdeps).
    rewrite Hup. reflexivity.
  - reflexivity.
  - intros i. reflexivity.
Qed.

(** C7: whatever metadata [infer_metadata()] of an object of class [Limit]
    returns has [size_bytes] and [exec_stats] absent; and with one input
    whose inference returns, whatever that returns, it does return one. *)
Theorem Limit_size_bytes_exec_stats_absent :
  forall (h : heap) (self : addr) (o : LogicalOperator) (limit : Z),
  nth_error h self = Some o ->
  class_of o = Limit limit ->
  (forall md, infer_metadata h self = Ok md ->
              size_bytes md = None /\ exec_stats md = None)
  /\ (forall (up : addr) (md_up : BlockMetadata),
        wf_heap h = true ->
        _input_dependencies o = [up] ->
        infer_metadata h up = Ok md_up ->
        exists md, infer_metadata h self = Ok md
                   /\ size_bytes md = None /\ exec_stats md = None).
Proof.
  intros h self o limit Hself Hcls. split.
  - intros md Hmd. unfold infer_metadata in Hmd. simpl in Hmd.
    rewrite (index_nth_error _ h self o Hself) in Hmd. simpl in Hmd.
    rewrite Hcls in Hmd. unfold Limit_infer_metadata in Hmd.
    apply bind_Ok in Hmd. destruct Hmd as [n [_ Hmd]].
    apply bind_Ok in Hmd. destruct Hmd as [f [_ Hmd]].
    inversion Hmd; subst md. split; reflexivity.
  - intros up md_up Hwf Hdeps Hup.
    exists (limit_metadata limit md_up). split; [| split; reflexivity].
    rewrite (infer_metadata_Limit h self o limit up Hwf Hself Hcls Hdeps).
    rewrite Hup. reflexivity.
Qed.

(** ** [Limit]: schema inference *)

(** C5: [infer_schema()] of a [Limit] with one input returns what
    [infer_schema()] of the input returns, be it a schema or [None]. *)
Theorem Limit_infer_schema_passthrough :
  forall (h : heap) (self : addr) (o : LogicalOperator) (limit : Z)
         (up : addr) (s : option Schema),
  wf_heap h = true ->
  nth_error h self = Some o ->
  class_of o = Limit limit ->
  _input_dependencies o = [up] ->
  infer_schema h up = Ok s ->
  infer_schema h self = Ok s.
Proof.
  intros h self o limit up s Hwf Hself Hcls Hdeps Hup.
  rewrite (infer_schema_Limit h self o limit up Hwf Hself Hcls Hdeps).
  exact Hup.
Qed.

(** ** Inference is a function of the DAG *)

(** C9: the results of [infer_metadata()] and [infer_schema()] at an
    operator are determined by the objects of the DAG below it.  If none of
    them differs between the store of a first call and the store of a second
    call, the two calls return equal results, whatever else was built in
    between. *)
Theorem inference_deterministic :
  forall (h1 h2 : heap) (x : addr),
  (forall b, In b (dag_nodes h1 x) -> nth_error h1 b = nth_error h2 b) ->
  infer_metadata h1 x = infer_metadata h2 x
  /\ infer_schema h1 x = infer_schema h2 x.
Proof.
  intros h1 h2 x Hagree. unfold infer_metadata, infer_schema. split.
  - apply infer_metadata_rec_agree. exact Hagree.
  - apply infer_schema_rec_agree. exact Hagree.
Qed.

(** ** More on [Limit]: failures *)

(** X1: inference on an object of class [Limit] whose dependency sequence
    does not have exactly one element fails with [AssertionError], for the
    metadata and for the schema, whatever the limit and whatever the store
    holds. *)
Theorem Limit_wrong_arity_AssertionError :
  forall (h : heap) (self : addr) (o : LogicalOperator) (limit : Z),
  nth_error h self = Some o ->
  class_of o = Limit limit ->
  List.length (_input_dependencies o) <> 1%nat ->
  infer_metadata h self = Raise AssertionError
  /\ infer_schema h self = Raise AssertionError.
Proof.
  intros h self o limit Hself Hcls Hlen.
  exact (infer_metadata_Limit_arity h self o limit Hself Hcls Hlen).
Qed.


(** ** More on [Limit]: the row count *)

(** X5: with a known input row count [r], the row count that a [Limit]
    infers is one of [r] and the limit, exceeds neither, and is not negative
    when neither of them is. *)
Theorem Limit_num_rows_bounds :
  forall (h : heap) (self : addr) (o : LogicalOperator) (limit : Z)
         (up : addr) (md_up : BlockMetadata) (r : Z),
  wf_heap h = true ->
  nth_error h self = Some o ->
  class_of o = Limit limit ->
  _input_dependencies o = [up] ->
  infer_metadata h up = Ok md_up ->
  num_rows md_up = Some r ->
  exists md n,
    infer_metadata h self = Ok md
    /\ num_rows md = Some n
    /\ (n <= r)%Z /\ (n <= limit)%Z
    /\ (n = r \/ n = limit)
    /\ ((0 <= r)%Z -> (0 <= limit)%Z -> (0 <= n)%Z).
Proof.
  intros h self o limit up md_up r Hwf Hself Hcls Hdeps Hup Hrows.
  exists (limit_metadata limit md_up), (Z.min r limit).
  split; [| split].
  - rewrite (infer_metadata_Limit h self o limit up Hwf Hself Hcls Hdeps).
    rewrite Hup. reflexivity.
  - unfold limit_metadata. simpl. rewrite Hrows. reflexivity.
  - repeat split; lia.
Qed.

(** X6: the limit is not validated.  With a negative limit over an input
    that reports a non-negative row count, the inferred row count is the
    negative limit. *)
Theorem Limit_negative_limit_reported :
  forall (h : heap) (self : addr) (o : LogicalOperator) (limit : Z)
         (up : addr) (md_up : BlockMetadata) (r : Z),
  wf_heap h = true ->
  nth_error h self = Some o ->
  class_of o = Limit limit ->
  _input_dependencies o = [up] ->
  infer_metadata h up = Ok md_up ->
  num_rows md_up = Some r ->
  (0 <= r)%Z ->
  (limit < 0)%Z ->
  exists md, infer_metadata h self = Ok md /\ num_rows md = Some limit.
Proof.
  intros h self o limit up md_up r Hwf Hself Hcls Hdeps Hup Hrows Hr Hneg.
  exists (limit_metadata limit md_up). split.
  - rewrite (infer_metadata_Limit h self o limit up Hwf Hself Hcls Hdeps).
    rewrite Hup. reflexivity.
  - unfold limit_metadata. simpl. rewrite Hrows. f_equal. lia.
Qed.

(** ** More on construction *)

Lemma new_Limit_infer_eq :
  forall (h : heap) (input_op : addr) (limit : Z),
  wf_heap h = true ->
  (input_op < List.length h)%nat ->
  infer_metadata (fst (new_Limit h input_op limit))
                 (snd (new_Limit h input_op limit))
  = (md <- infer_metadata h input_op ;; Ok (limit_metadata limit md))
  /\ infer_schema (fst (new_Limit h input_op limit))
                  (snd (new_Limit h input_op limit))
     = infer_schema h input_op.
Proof.
  intros h input_op limit Hwf Hlt.
  pose proof (new_Limit_wf h input_op limit Hwf Hlt) as Hwf'.
  unfold new_Limit in *.
  pose proof (alloc_lookup_new h (Limit__init__ input_op limit)) as Hnew.
  destruct (alloc_preserves_inference h (Limit__init__ input_op limit)
              input_op Hwf Hlt) as [Hm' Hs'].
  split.
  - rewrite (infer_metadata_Limit _ _ _ limit input_op Hwf' Hnew eq_refl eq_refl).
    rewrite Hm'. reflexivity.
  - rewrite (infer_schema_Limit _ _ _ limit input_op Hwf' Hnew eq_refl eq_refl).
    exact Hs'.
Qed.

Lemma new_Limit_fresh : forall (h : heap) (input_op : addr) (limit : Z),
  (snd (new_Limit h input_op limit)
   < List.length (fst (new_Limit h input_op limit)))%nat.
Proof.
  intros h input_op limit. unfold new_Limit, alloc; simpl.
  rewrite length_app. simpl. lia.
Qed.

Lemma limit_metadata_compose : forall (a b : Z) (md : BlockMetadata),
  limit_metadata b (limit_metadata a md) = limit_metadata (Z.min a b) md.
Proof.
  intros a b md. unfold limit_metadata. simpl.
  destruct (num_rows md) as [r |]; [| reflexivity].
  rewrite Z.min_assoc. reflexivity.
Qed.

Lemma fold_limit_metadata : forall (ls : list Z) (l : Z) (md : BlockMetadata),
  fold_left (fun m l' => limit_metadata l' m) ls (limit_metadata l md)
  = limit_metadata (fold_left Z.min ls l) md.
Proof.
  induction ls as [| l' ls IH]; intros l md; simpl; [reflexivity |].
  rewrite limit_metadata_compose. apply IH.
Qed.

Lemma stack_limits_inference :
  forall (ls : list Z) (h : heap) (x : addr)
         (md : BlockMetadata) (s : option Schema),
  wf_heap h = true ->
  (x < List.length h)%nat ->
  infer_metadata h x = Ok md ->
  infer_schema h x = Ok s ->
  wf_heap (fst (stack_limits h x ls)) = true
  /\ (snd (stack_limits h x ls) < List.length (fst (stack_limits h x ls)))%nat
  /\ infer_metadata (fst (stack_limits h x ls)) (snd (stack_limits h x ls))
     = Ok (fold_left (fun m l => limit_metadata l m) ls md)
  /\ infer_schema (fst (stack_limits h x ls)) (snd (stack_limits h x ls))
     = Ok s.
Proof.
  induction ls as [| l ls IH]; intros h x md s Hwf Hx Hmd Hs;
    cbn [stack_limits fold_left fst snd].
  - repeat split; assumption.
  - destruct (new_Limit_inference h x l md s Hwf Hx Hmd Hs) as [Hmd' Hs'].
    apply IH.
    + apply new_Limit_wf; assumption.
    + apply new_Limit_fresh.
    + exact Hmd'.
    + exact Hs'.
Qed.

(** X3: two [Limit]s on top of each other infer what one [Limit] with the
    smaller of the two limits infers, in either order of stacking, for the
    metadata and for the schema; this holds as well when the inference of
    the operator below fails. *)
Theorem Limit_of_Limit_is_min :
  forall (h : heap) (x : addr) (a b : Z),
  wf_heap h = true ->
  (x < List.length h)%nat ->
  (infer_metadata (fst (stack_limits h x [a; b])) (snd (stack_limits h x [a; b]))
   = infer_metadata (fst (new_Limit h x (Z.min a b)))
                    (snd (new_Limit h x (Z.min a b)))
   /\ infer_schema (fst (stack_limits h x [a; b])) (snd (stack_limits h x [a; b]))
      = infer_schema (fst (new_Limit h x (Z.min a b)))
                     (snd (new_Limit h x (Z.min a b))))
  /\ infer_metadata (fst (stack_limits h x [a; b])) (snd (stack_limits h x [a; b]))
     = infer_metadata (fst (stack_limits h x [b; a])) (snd (stack_limits h x [b; a])).
Proof.
  assert (Hstack : forall (h : heap) (x : addr) (a b : Z),
    wf_heap h = true -> (x < List.length h)%nat ->
    infer_metadata (fst (stack_limits h x [a; b])) (snd (stack_limits h x [a; b]))
    = (md <- infer_metadata h x ;; Ok (limit_metadata (Z.min a b) md))
    /\ infer_schema (fst (stack_limits h x [a; b])) (snd (stack_limits h x [a; b]))
       = infer_schema h x).
  { intros h x a b Hwf Hx. cbn [stack_limits fst snd].
    destruct (new_Limit_infer_eq h x a Hwf Hx) as [Hm1 Hs1].
    destruct (new_Limit_infer_eq (fst (new_Limit h x a)) (snd (new_Limit h x a)) b
                (new_Limit_wf h x a Hwf Hx) (new_Limit_fresh h x a)) as [Hm2 Hs2].
    split.
    - rewrite Hm2, Hm1.
      destruct (infer_metadata h x) as [md | e |]; simpl; try reflexivity.
      rewrite limit_metadata_compose. reflexivity.
    - rewrite Hs2. exact Hs1. }
  intros h x a b Hwf Hx.
  destruct (Hstack h x a b Hwf Hx) as [Hm Hs].
  destruct (Hstack h x b a Hwf Hx) as [Hm' _].
  destruct (new_Limit_infer_eq h x (Z.min a b) Hwf Hx) as [Hm1 Hs1].
  split; [split |].
  - rewrite Hm, Hm1. reflexivity.
  - rewrite Hs, Hs1. reflexivity.
  - rewrite Hm, Hm'. rewrite (Z.min_comm b a). reflexivity.
Qed.

(** X4: a non-empty stack of [Limit]s on an operator whose inference returns
    the metadata [md] and the schema [s] infers [md] adjusted by the smallest
    of the limits (row count capped or still unknown, no size, the same input
    files, no statistics) and infers the schema [s]. *)
Theorem stack_limits_is_smallest_limit :
  forall (h : heap) (x : addr) (l : Z) (ls : list Z)
         (md : BlockMetadata) (s : option Schema),
  wf_heap h = true ->
  (x < List.length h)%nat ->
  infer_metadata h x = Ok md ->
  infer_schema h x = Ok s ->
  infer_metadata (fst (stack_limits h x (l :: ls)))
                 (snd (stack_limits h x (l :: ls)))
  = Ok (mkBlockMetadata
          (match num_rows md with
           | Some r => Some (Z.min r (fold_left Z.min ls l))
           | None => None
           end)
          None (input_files md) None)
  /\ infer_schema (fst (stack_limits h x (l :: ls)))
                  (snd (stack_limits h x (l :: ls)))
     = Ok s.
Proof.
  intros h x l ls md s Hwf Hx Hmd Hs.
  destruct (stack_limits_inference (l :: ls) h x md s Hwf Hx Hmd Hs)
    as [_ [_ [Hm' Hs']]].
  split; [| exact Hs'].
  rewrite Hm'. simpl. rewrite fold_limit_metadata. reflexivity.
Qed.

(** X9: building a [Limit], or any other one-to-one operator, changes
    nothing in what the operators that exist already infer. *)
Theorem construction_preserves_inference :
  forall (h : heap) (x : addr),
  wf_heap h = true ->
  (x < List.length h)%nat ->
  (forall (input_op : addr) (limit : Z),
     infer_metadata (fst (new_Limit h input_op limit)) x = infer_metadata h x
     /\ infer_schema (fst (new_Limit h input_op limit)) x = infer_schema h x)
  /\ (forall (cls : OpClass) (name : string) (input_op : option addr)
             (num_outputs : option Z),
        infer_metadata
          (fst (new_AbstractOneToOne h cls name input_op num_outputs)) x
        = infer_metadata h x
        /\ infer_schema
             (fst (new_AbstractOneToOne h cls name input_op num_outputs)) x
           = infer_schema h x).
Proof.
  intros h x Hwf Hx. split.
  - intros input_op limit. unfold new_Limit.
    apply alloc_preserves_inference; assumption.
  - intros cls name input_op num_outputs. unfold new_AbstractOneToOne.
    apply alloc_preserves_inference; assumption.
Qed.

(** ** Plans built through the constructors *)

Lemma built_wf : forall h : heap,
  built h -> wf_heap h = true /\ limits_unary h = true.
Proof.
  intros h Hb. induction Hb as [| h e name deps n Hb [IHwf IHun] Hdeps
                                 | h input_op limit Hb [IHwf IHun] Hlt].
  - split; reflexivity.
  - split.
    + apply alloc_wf; assumption.
    + unfold alloc, limits_unary; simpl.
      rewrite forallb_app. unfold limits_unary in IHun. rewrite IHun.
      reflexivity.
  - split.
    + apply new_Limit_wf; assumption.
    + apply new_Limit_unary; assumption.
Qed.

(** X8: in a plan built one operator at a time on operators that exist,
    with every [Limit] made by its constructor, inference fails at no
    operator: [infer_metadata()] and [infer_schema()] both return a value. *)
Theorem built_inference_returns :
  forall (h : heap) (x : addr),
  built h ->
  (x < List.length h)%nat ->
  (exists md, infer_metadata h x = Ok md)
  /\ (exists s, infer_schema h x = Ok s).
Proof.
  intros h x Hb Hx.
  destruct (built_wf h Hb) as [Hwf Hun].
  exact (inference_returns h Hwf Hun x Hx).
Qed.

End Operators.

(** ** The name of a [Limit] *)

Lemma to_int_not_nil : forall z : Z,
  Z.to_int z <> Decimal.Pos Decimal.Nil /\ Z.to_int z <> Decimal.Neg Decimal.Nil.
Proof.
  intros [| p | p]; simpl; split; try discriminate;
    intros H; inversion H as [Hp];
    exact (DecimalPos.Unsigned.to_uint_nonnil p Hp).
Qed.

Lemma str_int_inj : forall z1 z2 : Z, str_int z1 = str_int z2 -> z1 = z2.
Proof.
  intros z1 z2 H. unfold str_int in H.
  destruct (to_int_not_nil z1) as [Hp1 Hn1].
  destruct (to_int_not_nil z2) as [Hp2 Hn2].
  pose proof (NilZero.isi (Z.to_int z1) Hp1 Hn1) as H1.
  pose proof (NilZero.isi (Z.to_int z2) Hp2 Hn2) as H2.
  rewrite H in H1. rewrite H1 in H2. inversion H2 as [Heq].
  apply DecimalZ.to_int_inj. exact Heq.
Qed.

(** X7: the name that [Limit.__init__] gives the operator, ["limit="]
    followed by the decimal form of the limit, tells the limits apart: two
    [Limit]s have the same name exactly when they have the same limit. *)
Theorem Limit_name_determines_limit :
  forall (Schema BlockExecStats : Type) (a b : addr) (l1 l2 : Z),
  _name (Limit__init__ (Schema := Schema) (BlockExecStats := BlockExecStats) a l1)
  = _name (Limit__init__ (Schema := Schema) (BlockExecStats := BlockExecStats) b l2)
  <-> l1 = l2.
Proof.
  intros Schema BlockExecStats a b l1 l2. simpl. split.
  - intros H. inversion H as [Heq]. apply str_int_inj. exact Heq.
  - intros ->. reflexivity.
Qed.

(** ** The example scenarios, by evaluation *)

Example scenario_1000_limit_100 :
  infer_metadata
      (demo_heap (Schema := ColumnTypes) (BlockExecStats := unit)
         (demo_metadata (Some 1000%Z)) None 100%Z) 1
  = Ok (mkBlockMetadata (Some 100%Z) None ["a.parquet"; "b.parquet"]%string None).
Proof. reflexivity. Qed.

Example scenario_50_limit_100 :
  infer_metadata
      (demo_heap (Schema := ColumnTypes) (BlockExecStats := unit)
         (demo_metadata (Some 50%Z)) None 100%Z) 1
  = Ok (mkBlockMetadata (Some 50%Z) None ["a.parquet"; "b.parquet"]%string None).
Proof. reflexivity. Qed.

Example scenario_absent_limit_100 :
  infer_metadata
      (demo_heap (Schema := ColumnTypes) (BlockExecStats := unit)
         (demo_metadata None) None 100%Z) 1
  = Ok (mkBlockMetadata None None ["a.parquet"; "b.parquet"]%string None).
Proof. reflexivity. Qed.

Example scenario_schema_limit_0 :
  infer_schema
      (demo_heap (Schema := ColumnTypes) (BlockExecStats := unit)
         (demo_metadata (Some 1000%Z)) (Some col_int) 0%Z) 1
  = Ok (Some col_int).
Proof. reflexivity. Qed.

Example scenario_name :
  _name (Limit__init__ (Schema := ColumnTypes) (BlockExecStats := unit) 0 100%Z)
  = "limit=100"%string.
Proof. reflexivity. Qed.

(** An object of class [Limit] with two dependencies: the arity assertion of
    the inference methods fails. *)
Example scenario_two_inputs_inference :
  infer_metadata (Schema := ColumnTypes) (BlockExecStats := unit)
    [demo_source (demo_metadata None) None;
     demo_source (demo_metadata None) None;
     two_inputs] 2
  = Raise AssertionError.
Proof. reflexivity. Qed.

(** ** Instances of the theorems on the example plan *)

Lemma Limit_num_rows_known_witness :
  exists md,
    infer_metadata
      (demo_heap (Schema := ColumnTypes) (BlockExecStats := unit)
         (demo_metadata (Some 1000%Z)) (Some col_int) 100%Z) 1 = Ok md
    /\ num_rows md = Some (Z.min 1000 100).
Proof.
  apply (Limit_num_rows_known
           (demo_heap (Schema := ColumnTypes) (BlockExecStats := unit)
         (demo_metadata (Some 1000%Z)) (Some col_int) 100%Z) 1
           (Limit__init__ 0 100%Z) 100%Z 0
           (demo_metadata (Some 1000%Z)) 1000%Z);
    try reflexivity.
  lia.
Defined.

Lemma Limit_num_rows_unknown_witness :
  exists md,
    infer_metadata
      (demo_heap (Schema := ColumnTypes) (BlockExecStats := unit)
         (demo_metadata None) (Some col_int) 100%Z) 1 = Ok md
    /\ num_rows md = None
    /\ num_rows md <> Some 100%Z.
Proof.
  apply (Limit_num_rows_unknown
           (demo_heap (Schema := ColumnTypes) (BlockExecStats := unit)
         (demo_metadata None) (Some col_int) 100%Z) 1
           (Limit__init__ 0 100%Z) 100%Z 0 (demo_metadata None));
    reflexivity.
Defined.

Lemma Limit_input_files_inherited_witness :
  exists md,
    infer_metadata
      (demo_heap (Schema := ColumnTypes) (BlockExecStats := unit)
         (demo_metadata (Some 1000%Z)) (Some col_int) 10%Z) 1 = Ok md
    /\ input_files md = ["a.parquet"; "b.parquet"]%string
    /\ (forall i, nth_error (input_files md) i
                  = nth_error ["a.parquet"; "b.parquet"]%string i).
Proof.
  apply (Limit_input_files_inherited
           (demo_heap (Schema := ColumnTypes) (BlockExecStats := unit)
         (demo_metadata (Some 1000%Z)) (Some col_int) 10%Z) 1
           (Limit__init__ 0 10%Z) 10%Z 0 (demo_metadata (Some 1000%Z)));
    reflexivity.
Defined.

Lemma Limit_size_bytes_exec_stats_absent_witness :
  exists md,
    infer_metadata
      (demo_heap (Schema := ColumnTypes) (BlockExecStats := unit)
         (demo_metadata (Some 1000%Z)) (Some col_int) 10%Z) 1 = Ok md
    /\ size_bytes md = None /\ exec_stats md = None.
Proof.
  apply (proj2
           (Limit_size_bytes_exec_stats_absent
              (demo_heap (Schema := ColumnTypes) (BlockExecStats := unit)
         (demo_metadata (Some 1000%Z)) (Some col_int) 10%Z) 1
              (Limit__init__ 0 10%Z) 10%Z eq_refl eq_refl)
           0%nat (demo_metadata (Some 1000%Z)));
    reflexivity.
Defined.

Lemma Limit_infer_schema_passthrough_witness :
  infer_schema
      (demo_heap (Schema := ColumnTypes) (BlockExecStats := unit)
         (demo_metadata (Some 1000%Z)) (Some col_int) 0%Z) 1
  = Ok (Some col_int)
  /\ infer_schema
      (demo_heap (Schema := ColumnTypes) (BlockExecStats := unit)
         (demo_metadata (Some 1000%Z)) None 0%Z) 1 = Ok None.
Proof.
  split.
  - apply (Limit_infer_schema_passthrough
             (demo_heap (Schema := ColumnTypes) (BlockExecStats := unit)
         (demo_metadata (Some 1000%Z)) (Some col_int) 0%Z) 1
             (Limit__init__ 0 0%Z) 0%Z 0 (Some col_int));
      reflexivity.
  - apply (Limit_infer_schema_passthrough
             (demo_heap (Schema := ColumnTypes) (BlockExecStats := unit)
         (demo_metadata (Some 1000%Z)) None 0%Z) 1
             (Limit__init__ 0 0%Z) 0%Z 0 None);
      reflexivity.
Defined.

Lemma Limit_can_modify_num_rows_true_witness :
  can_modify_num_rows
    (demo_heap (Schema := ColumnTypes) (BlockExecStats := unit)
         (demo_metadata None) None 7%Z) 1
  = Ok (Some true).
Proof.
  apply (Limit_can_modify_num_rows_true
           (demo_heap (Schema := ColumnTypes) (BlockExecStats := unit)
         (demo_metadata None) None 7%Z) 1
           (Limit__init__ 0 7%Z) 7%Z);
    reflexivity.
Defined.

Lemma inference_deterministic_witness :
  infer_metadata
    (demo_heap (Schema := ColumnTypes) (BlockExecStats := unit)
         (demo_metadata (Some 1000%Z)) (Some col_int) 100%Z) 1
  = infer_metadata
      (fst (demo_plan_grown (Schema := ColumnTypes) (BlockExecStats := unit)
              (demo_metadata (Some 1000%Z)) (Some col_int)
              100%Z 10%Z)) 1
  /\ infer_schema
       (demo_heap (Schema := ColumnTypes) (BlockExecStats := unit)
         (demo_metadata (Some 1000%Z)) (Some col_int) 100%Z) 1
     = infer_schema
         (fst (demo_plan_grown (Schema := ColumnTypes) (BlockExecStats := unit)
              (demo_metadata (Some 1000%Z)) (Some col_int)
                 100%Z 10%Z)) 1.
Proof.
  apply (inference_deterministic
           (demo_heap (Schema := ColumnTypes) (BlockExecStats := unit)
         (demo_metadata (Some 1000%Z)) (Some col_int) 100%Z)
           (fst (demo_plan_grown (Schema := ColumnTypes) (BlockExecStats := unit)
              (demo_metadata (Some 1000%Z)) (Some col_int)
                   100%Z 10%Z)) 1).
  intros b [Hb | [Hb | []]]; rewrite <- Hb; reflexivity.
Defined.

(** ** [input_dependency] on a dependency sequence of length two *)

(** C3 (as stated) fails: the dependency sequence of [two_inputs] does not
    have exactly one element, and [input_dependency] returns its first
    element instead of failing. *)
Lemma input_dependency_two_inputs :
  List.length
    (_input_dependencies
       (two_inputs (Schema := ColumnTypes) (BlockExecStats := unit))) <> 1%nat
  /\ input_dependency
       (two_inputs (Schema := ColumnTypes) (BlockExecStats := unit)) = Ok 0%nat
  /\ ~ (exists e : exn,
          input_dependency
            (two_inputs (Schema := ColumnTypes) (BlockExecStats := unit))
          = Raise e).
Proof.
  split; [discriminate | split; [reflexivity |]].
  intros [e He]. discriminate He.
Qed.

(** ** Instances of the further theorems *)

Lemma Limit_wrong_arity_AssertionError_witness :
  infer_metadata
    (demo_broken_heap (Schema := ColumnTypes) (BlockExecStats := unit)
       (demo_metadata (Some 1000%Z)) (Some col_int)) 2
  = Raise AssertionError
  /\ infer_schema
       (demo_broken_heap (Schema := ColumnTypes) (BlockExecStats := unit)
          (demo_metadata (Some 1000%Z)) (Some col_int)) 2
     = Raise AssertionError.
Proof.
  apply (Limit_wrong_arity_AssertionError
           (demo_broken_heap (Schema := ColumnTypes) (BlockExecStats := unit)
              (demo_metadata (Some 1000%Z)) (Some col_int)) 2
           two_inputs 5%Z);
    [reflexivity | reflexivity | discriminate].
Defined.


Lemma Limit_of_Limit_is_min_witness :
  (infer_metadata
     (fst (stack_limits (Schema := ColumnTypes) (BlockExecStats := unit)
             [demo_source (demo_metadata (Some 1000%Z)) (Some col_int)] 0
             [100%Z; 10%Z]))
     (snd (stack_limits (Schema := ColumnTypes) (BlockExecStats := unit)
             [demo_source (demo_metadata (Some 1000%Z)) (Some col_int)] 0
             [100%Z; 10%Z]))
   = infer_metadata
       (fst (new_Limit (Schema := ColumnTypes) (BlockExecStats := unit)
               [demo_source (demo_metadata (Some 1000%Z)) (Some col_int)] 0
               (Z.min 100 10)))
       (snd (new_Limit (Schema := ColumnTypes) (BlockExecStats := unit)
               [demo_source (demo_metadata (Some 1000%Z)) (Some col_int)] 0
               (Z.min 100 10)))
   /\ infer_schema
        (fst (stack_limits (Schema := ColumnTypes) (BlockExecStats := unit)
                [demo_source (demo_metadata (Some 1000%Z)) (Some col_int)] 0
                [100%Z; 10%Z]))
        (snd (stack_limits (Schema := ColumnTypes) (BlockExecStats := unit)
                [demo_source (demo_metadata (Some 1000%Z)) (Some col_int)] 0
                [100%Z; 10%Z]))
      = infer_schema
          (fst (new_Limit (Schema := ColumnTypes) (BlockExecStats := unit)
                  [demo_source (demo_metadata (Some 1000%Z)) (Some col_int)] 0
                  (Z.min 100 10)))
          (snd (new_Limit (Schema := ColumnTypes) (BlockExecStats := unit)
                  [demo_source (demo_metadata (Some 1000%Z)) (Some col_int)] 0
                  (Z.min 100 10))))
  /\ infer_metadata
       (fst (stack_limits (Schema := ColumnTypes) (BlockExecStats := unit)
               [demo_source (demo_metadata (Some 1000%Z)) (Some col_int)] 0
               [100%Z; 10%Z]))
       (snd (stack_limits (Schema := ColumnTypes) (BlockExecStats := unit)
               [demo_source (demo_metadata (Some 1000%Z)) (Some col_int)] 0
               [100%Z; 10%Z]))
     = infer_metadata
         (fst (stack_limits (Schema := ColumnTypes) (BlockExecStats := unit)
                 [demo_source (demo_metadata (Some 1000%Z)) (Some col_int)] 0
                 [10%Z; 100%Z]))
         (snd (stack_limits (Schema := ColumnTypes) (BlockExecStats := unit)
                 [demo_source (demo_metadata (Some 1000%Z)) (Some col_int)] 0
                 [10%Z; 100%Z])).
Proof.
  apply (Limit_of_Limit_is_min
           [demo_source (Schema := ColumnTypes) (BlockExecStats := unit)
              (demo_metadata (Some 1000%Z)) (Some col_int)] 0 100%Z 10%Z);
    [reflexivity | apply le_n].
Defined.

Lemma stack_limits_is_smallest_limit_witness :
  infer_metadata
    (fst (stack_limits (Schema := ColumnTypes) (BlockExecStats := unit)
            [demo_source (demo_metadata (Some 1000%Z)) (Some col_int)] 0
            [100%Z; 10%Z; 50%Z]))
    (snd (stack_limits (Schema := ColumnTypes) (BlockExecStats := unit)
            [demo_source (demo_metadata (Some 1000%Z)) (Some col_int)] 0
            [100%Z; 10%Z; 50%Z]))
  = Ok (mkBlockMetadata
          (Some (Z.min 1000 (fold_left Z.min [10%Z; 50%Z] 100%Z)))
          None ["a.parquet"; "b.parquet"]%string None)
  /\ infer_schema
       (fst (stack_limits (Schema := ColumnTypes) (BlockExecStats := unit)
               [demo_source (demo_metadata (Some 1000%Z)) (Some col_int)] 0
               [100%Z; 10%Z; 50%Z]))
       (snd (stack_limits (Schema := ColumnTypes) (BlockExecStats := unit)
               [demo_source (demo_metadata (Some 1000%Z)) (Some col_int)] 0
               [100%Z; 10%Z; 50%Z]))
     = Ok (Some col_int).
Proof.
  apply (stack_limits_is_smallest_limit
           [demo_source (Schema := ColumnTypes) (BlockExecStats := unit)
              (demo_metadata (Some 1000%Z)) (Some col_int)] 0
           100%Z [10%Z; 50%Z] (demo_metadata (Some 1000%Z)) (Some col_int));
    [reflexivity | apply le_n | reflexivity | reflexivity].
Defined.

Lemma Limit_num_rows_bounds_witness :
  exists md n,
    infer_metadata
      (demo_heap (Schema := ColumnTypes) (BlockExecStats := unit)
         (demo_metadata (Some 50%Z)) None 100%Z) 1 = Ok md
    /\ num_rows md = Some n
    /\ (n <= 50)%Z /\ (n <= 100)%Z
    /\ (n = 50%Z \/ n = 100%Z)
    /\ ((0 <= 50)%Z -> (0 <= 100)%Z -> (0 <= n)%Z).
Proof.
  apply (Limit_num_rows_bounds
           (demo_heap (Schema := ColumnTypes) (BlockExecStats := unit)
              (demo_metadata (Some 50%Z)) None 100%Z) 1
           (Limit__init__ 0 100%Z) 100%Z 0 (demo_metadata (Some 50%Z)) 50%Z);
    reflexivity.
Defined.

Lemma Limit_negative_limit_reported_witness :
  exists md,
    infer_metadata
      (demo_heap (Schema := ColumnTypes) (BlockExecStats := unit)
         (demo_metadata (Some 1000%Z)) None (-1)%Z) 1 = Ok md
    /\ num_rows md = Some (-1)%Z.
Proof.
  apply (Limit_negative_limit_reported
           (demo_heap (Schema := ColumnTypes) (BlockExecStats := unit)
              (demo_metadata (Some 1000%Z)) None (-1)%Z) 1
           (Limit__init__ 0 (-1)%Z) (-1)%Z 0
           (demo_metadata (Some 1000%Z)) 1000%Z);
    try reflexivity; lia.
Defined.

Lemma Limit_name_determines_limit_witness :
  _name (Limit__init__ (Schema := ColumnTypes) (BlockExecStats := unit) 0 100%Z)
  <> _name (Limit__init__ (Schema := ColumnTypes) (BlockExecStats := unit) 0 10%Z).
Proof.
  intros H.
  pose proof (proj1 (Limit_name_determines_limit ColumnTypes unit
                       0%nat 0%nat 100%Z 10%Z) H) as Heq.
  discriminate Heq.
Defined.

Lemma built_inference_returns_witness :
  (exists md,
     infer_metadata
       (demo_heap (Schema := ColumnTypes) (BlockExecStats := unit)
          (demo_metadata (Some 1000%Z)) (Some col_int) 100%Z) 1 = Ok md)
  /\ (exists s,
        infer_schema
          (demo_heap (Schema := ColumnTypes) (BlockExecStats := unit)
             (demo_metadata (Some 1000%Z)) (Some col_int) 100%Z) 1 = Ok s).
Proof.
  apply (built_inference_returns
           (demo_heap (Schema := ColumnTypes) (BlockExecStats := unit)
              (demo_metadata (Some 1000%Z)) (Some col_int) 100%Z) 1).
  - apply (built_Limit
             [demo_source (demo_metadata (Some 1000%Z)) (Some col_int)]
             0 100%Z).
    + apply (built_External [] _ "Read" [] None built_empty eq_refl).
    + apply le_n.
  - apply le_n.
Defined.

Lemma construction_preserves_inference_witness :
  infer_metadata
    (fst (new_Limit
            (demo_heap (Schema := ColumnTypes) (BlockExecStats := unit)
               (demo_metadata (Some 1000%Z)) (Some col_int) 100%Z) 1 10%Z)) 1
  = infer_metadata
      (demo_heap (Schema := ColumnTypes) (BlockExecStats := unit)
         (demo_metadata (Some 1000%Z)) (Some col_int) 100%Z) 1
  /\ infer_schema
       (fst (new_Limit
               (demo_heap (Schema := ColumnTypes) (BlockExecStats := unit)
                  (demo_metadata (Some 1000%Z)) (Some col_int) 100%Z) 1 10%Z)) 1
     = infer_schema
         (demo_heap (Schema := ColumnTypes) (BlockExecStats := unit)
            (demo_metadata (Some 1000%Z)) (Some col_int) 100%Z) 1.
Proof.
  apply (proj1
           (construction_preserves_inference
              (demo_heap (Schema := ColumnTypes) (BlockExecStats := unit)
                 (demo_metadata (Some 1000%Z)) (Some col_int) 100%Z) 1
              eq_refl (le_n 2))
           1%nat 10%Z).
Defined.
